(** * Posts table: the post collection controller

    A shallow embedding of the [PostsTable] component
    (components/PostsTable.tsx), of the [PostForm] rules
    (components/PostForm.tsx) and of the record types of types/post.ts.

    The component keeps its state in React cells ([useState]) and in an antd
    form handle; its handlers are [async] functions built from [try] /
    [catch] / [finally] around axios calls.  The handlers are written here in
    a small state-and-exception monad over the component's cells, the reply
    of the awaited axios call being an input of the handler. *)

From Stdlib Require Import ZArith List String Ascii Bool Lia DecimalString.
Import ListNotations.

Open Scope string_scope.
Open Scope Z_scope.

(** ** Data model (types/post.ts) *)

Record Post := mkPost {
  id : Z;
  title : string;
  body : string;
  userId : Z
}.

Record PostFormData := mkPostFormData {
  fd_title : string;
  fd_body : string
}.

(** [{ ...editingPost, ...values }]: the fields of [values] override those
    of [editingPost]; [PostFormData] only has [title] and [body]. *)
Definition spread (editingPost : Post) (values : PostFormData) : Post :=
  {| id := id editingPost;
     title := fd_title values;
     body := fd_body values;
     userId := userId editingPost |}.

(** ** The collaborators: axios and the notification sink *)

(** A thrown value as the handlers probe it: [error instanceof AxiosError],
    [error.response?.status] and the truthiness of [error.request]. *)
Record ApiError := mkApiError {
  isAxiosError : bool;
  response : option Z;
  request : bool
}.

(** What an awaited axios call gives back: the [data] of the response, or a
    thrown value. *)
Inductive Reply (A : Type) :=
| Resolved (data : A)
| Rejected (error : ApiError).
Arguments Resolved {A} data.
Arguments Rejected {A} error.

(** The requests the component issues, with their payload. *)
Inductive Request :=
| GET_posts
| POST_posts (rq_title rq_body : string) (rq_userId : Z)
| PUT_post (url_id : Z) (rq_title rq_body : string) (rq_id rq_userId : Z)
| DELETE_post (url_id : Z).

Inductive Severity := success | error | warning | info.

Record Notification := mkNotification {
  severity : Severity;
  message : string;
  description : string
}.

(** ** The component's state *)

(** The antd form store of the two fields; [None] is [undefined]. *)
Record FormStore := mkForm {
  f_title : option string;
  f_body : option string
}.

Record State := mkState {
  posts : list Post;
  loading : bool;
  isModalOpen : bool;
  editingPost : option Post;
  form : FormStore;
  notifications : list Notification;   (* what the sink received, oldest first *)
  sent : list Request                  (* what axios was asked, oldest first *)
}.

(** ** A state monad with exceptions *)

Inductive Completion (A : Type) :=
| Returned (a : A)
| Thrown (e : ApiError).
Arguments Returned {A} a.
Arguments Thrown {A} e.

Definition M (A : Type) : Type := State -> Completion A * State.

Definition ret {A} (a : A) : M A := fun s => (Returned a, s).

Definition bind {A B} (m : M A) (k : A -> M B) : M B :=
  fun s => match m s with
           | (Returned a, s') => k a s'
           | (Thrown e, s') => (Thrown e, s')
           end.

Definition throw {A} (e : ApiError) : M A := fun s => (Thrown e, s).

Definition try_catch {A} (m : M A) (h : ApiError -> M A) : M A :=
  fun s => match m s with
           | (Returned a, s') => (Returned a, s')
           | (Thrown e, s') => h e s'
           end.

Definition try_finally {A} (m : M A) (f : M unit) : M A :=
  fun s => match m s with
           | (c, s') => match f s' with
                        | (Returned _, s'') => (c, s'')
                        | (Thrown e, s'') => (Thrown e, s'')
                        end
           end.

Definition modify (f : State -> State) : M unit := fun s => (Returned tt, f s).

Declare Scope monad_scope.
Delimit Scope monad_scope with monad.
Notation "x <- m ;; k" := (bind m (fun x => k))
  (at level 61, m at next level, right associativity) : monad_scope.
Notation "m ;; k" := (bind m (fun _ => k))
  (at level 61, right associativity) : monad_scope.
Open Scope monad_scope.

Definition exec {A} (m : M A) (s : State) : State := snd (m s).

(** ** The setters of the cells *)

Definition setPosts (f : list Post -> list Post) : M unit :=
  modify (fun s => mkState (f (posts s)) (loading s) (isModalOpen s)
                           (editingPost s) (form s) (notifications s) (sent s)).

Definition setLoading (b : bool) : M unit :=
  modify (fun s => mkState (posts s) b (isModalOpen s)
                           (editingPost s) (form s) (notifications s) (sent s)).

Definition setIsModalOpen (b : bool) : M unit :=
  modify (fun s => mkState (posts s) (loading s) b
                           (editingPost s) (form s) (notifications s) (sent s)).

Definition setEditingPost (p : option Post) : M unit :=
  modify (fun s => mkState (posts s) (loading s) (isModalOpen s)
                           p (form s) (notifications s) (sent s)).

Definition setForm (f : FormStore) : M unit :=
  modify (fun s => mkState (posts s) (loading s) (isModalOpen s)
                           (editingPost s) f (notifications s) (sent s)).

Definition showNotification (type : Severity) (msg descr : string) : M unit :=
  modify (fun s => mkState (posts s) (loading s) (isModalOpen s)
                           (editingPost s) (form s)
                           (notifications s ++ [mkNotification type msg descr])
                           (sent s)).

(** An awaited axios call: the request goes out, the reply comes back as a
    value or as a thrown error. *)
Definition axios {A} (rq : Request) (reply : Reply A) : M A :=
  fun s =>
    let s' := mkState (posts s) (loading s) (isModalOpen s) (editingPost s)
                      (form s) (notifications s) (sent s ++ [rq]) in
    match reply with
    | Resolved data => (Returned data, s')
    | Rejected e => (Thrown e, s')
    end.

(** ** handleApiError *)

(** A number in a template literal. *)
Definition string_of_status (status : Z) : string :=
  NilZero.string_of_int (Z.to_int status).

Definition errorMessage (e : ApiError) : string :=
  match response e with
  | Some status =>
      if status =? 404 then "The requested resource was not found"
      else if status =? 400 then "Invalid request data"
      else if status =? 500 then "Server error occurred"
      else "Error: " ++ string_of_status status
  | None =>
      if request e then "No response received from server"
      else "An unexpected error occurred"
  end.

Definition handleApiError (e : ApiError) (context : string) : M unit :=
  showNotification error ("Error " ++ context) (errorMessage e).

(** [error.response?.status === n] *)
Definition status_is (e : ApiError) (n : Z) : bool :=
  match response e with
  | Some status => status =? n
  | None => false
  end.

(** JavaScript truthiness of an optional string ([if (initialError)]). *)
Definition truthy (o : option string) : bool :=
  match o with
  | Some str => negb (String.eqb str "")
  | None => false
  end.

(** ** fetchPosts

    [initialError] is the component's prop.  The [data] of the GET reply is
    [Some l] when it is an array and [None] otherwise
    ([response.data && Array.isArray(response.data)]). *)
Definition fetchPosts (initialError : option string)
    (reply : Reply (option (list Post))) : M unit :=
  try_finally
    (try_catch
       (setLoading true ;;
        data <- axios GET_posts reply ;;
        match data with
        | Some l =>
            setPosts (fun _ => l) ;;
            if truthy initialError
            then showNotification success "Data Loaded"
                                  "Successfully retrieved posts"
            else ret tt
        | None => ret tt
        end)
       (fun err => handleApiError err "fetching posts"))
    (setLoading false).

(** ** The edit session: handleEdit, handleModalCancel, the add button *)

Definition handleEdit (post : Post) : M unit :=
  setEditingPost (Some post) ;;
  setForm (mkForm (Some (title post)) (Some (body post))) ;;
  setIsModalOpen true.

Definition handleModalCancel : M unit :=
  setForm (mkForm None None) ;;
  setIsModalOpen false ;;
  setEditingPost None.

(** [onClick={() => setIsModalOpen(true)}] of "Add New Post". *)
Definition addNewPost : M unit := setIsModalOpen true.

(** ** handleSubmit

    [editingPost] is the value the handler closed over, that is the cell's
    value when the handler starts.  The previous value handed to the updater
    of [setPosts] is always an array here, so the [Array.isArray(prevPosts)]
    branches that yield [[]] or [[response.data]] are not reachable. *)
Definition handleSubmit (reply : Reply Post) (values : PostFormData) : M unit :=
  fun s0 =>
    let editing := editingPost s0 in
    try_finally
      (try_catch
         (setLoading true ;;
          match editing with
          | Some ep =>
              try_catch
                (_ <- axios (PUT_post (id ep) (fd_title values) (fd_body values)
                                      (id ep) (userId ep)) reply ;;
                 let updatedPost := spread ep values in
                 setPosts (map (fun post =>
                                  if id post =? id ep then updatedPost else post)) ;;
                 showNotification success "Post Updated"
                   "Your post has been successfully updated (simulated)" ;;
                 handleModalCancel)
                (fun err =>
                   if isAxiosError err && status_is err 500 then
                     let updatedPost := spread ep values in
                     setPosts (map (fun post =>
                                      if id post =? id ep then updatedPost else post)) ;;
                     showNotification success "Post Updated"
                       "Update simulated successfully (JSONPlaceholder API)" ;;
                     handleModalCancel
                   else throw err)
          | None =>
              data <- axios (POST_posts (fd_title values) (fd_body values) 1) reply ;;
              setPosts (fun prevPosts => data :: prevPosts) ;;
              showNotification success "Post Created"
                "Your new post has been successfully created" ;;
              handleModalCancel
          end)
         (fun err => handleApiError err
                       (match editing with
                        | Some _ => "updating post"
                        | None => "creating post"
                        end)))
      (setLoading false) s0.

(** ** handleDelete *)
Definition handleDelete (reply : Reply unit) (postId : Z) : M unit :=
  try_finally
    (try_catch
       (setLoading true ;;
        try_catch
          (axios (DELETE_post postId) reply)
          (fun err =>
             if negb (isAxiosError err
                      && (status_is err 404 || status_is err 500))
             then throw err
             else ret tt) ;;
        setPosts (filter (fun post => negb (id post =? postId))) ;;
        showNotification success "Post Deleted"
          "The post has been successfully deleted (simulated)")
       (fun err => handleApiError err "deleting post"))
    (setLoading false).

(** ** The form (PostForm.tsx)

    Both fields carry the single rule [{ required: true, message }].  antd's
    [required] rule, with no [whitespace: true] beside it, fails on a value
    that is [undefined] or the empty string and on nothing else. *)
Definition required (value : option string) : bool :=
  match value with
  | Some str => negb (String.eqb str "")
  | None => false
  end.

(** The [onFinishFailed] callback handed to the form by [PostsTable]. *)
Definition onFinishFailed : M unit :=
  showNotification warning "Validation Error"
    "Please check the form fields and try again".

Definition fieldValue (value : option string) : string :=
  match value with
  | Some str => str
  | None => ""
  end.

(** Pressing the submit button: the form runs its rules, then calls
    [onFinish] (that is [handleSubmit]) with the field values, or
    [onFinishFailed]. *)
Definition submit (reply : Reply Post) : M unit :=
  fun s =>
    if required (f_title (form s)) && required (f_body (form s))
    then handleSubmit reply
           (mkPostFormData (fieldValue (f_title (form s)))
                           (fieldValue (f_body (form s)))) s
    else onFinishFailed s.

(** The user typing into the two inputs. *)
Definition typeFields (t b : option string) : M unit := setForm (mkForm t b).

(** ** Sequences of user actions *)

Inductive Action :=
| Fetch (initialError : option string) (reply : Reply (option (list Post)))
| AddNew
| EditPost (post : Post)
| TypeIn (t b : option string)
| SubmitForm (reply : Reply Post)
| CancelForm
| DeletePost (postId : Z) (reply : Reply unit).

Definition step (a : Action) (s : State) : State :=
  match a with
  | Fetch initialError reply => exec (fetchPosts initialError reply) s
  | AddNew => exec addNewPost s
  | EditPost post => exec (handleEdit post) s
  | TypeIn t b => exec (typeFields t b) s
  | SubmitForm reply => exec (submit reply) s
  | CancelForm => exec handleModalCancel s
  | DeletePost postId reply => exec (handleDelete reply postId) s
  end.

Definition run (acts : list Action) (s : State) : State :=
  fold_left (fun st a => step a st) acts s.

(** The component as mounted with [initialPosts]. *)
Definition mount (initialPosts : list Post) : State :=
  mkState initialPosts false false None (mkForm None None) [] [].

Definition ids (l : list Post) : list Z := map id l.

(** [contains sub str]: [sub] occurs in [str]. *)
Definition contains (sub str : string) : bool :=
  match String.index 0 sub str with
  | Some _ => true
  | None => false
  end.

(** Executable versions of membership and of the absence of duplicates. *)
Definition mem (k : Z) (l : list Z) : bool := existsb (Z.eqb k) l.

Fixpoint distinct (l : list Z) : bool :=
  match l with
  | [] => true
  | k :: rest => negb (mem k rest) && distinct rest
  end.

(** A text that is empty or made of white space only. *)
Definition is_space (c : ascii) : bool :=
  match nat_of_ascii c with
  | 32%nat | 9%nat | 10%nat | 11%nat | 12%nat | 13%nat => true
  | _ => false
  end.

Fixpoint blank (str : string) : bool :=
  match str with
  | EmptyString => true
  | String c rest => is_space c && blank rest
  end.

(** The replies of the server that keep ids apart: a load answers with a
    collection without a repeated id, and a create that goes through (no
    edit target, both fields passing their rule) answers with a record whose
    id no record of [posts] has. *)
Definition reply_fresh (a : Action) (s : State) : bool :=
  match a with
  | Fetch _ (Resolved (Some l)) => distinct (ids l)
  | SubmitForm (Resolved d) =>
      match editingPost s with
      | Some _ => true
      | None =>
          if required (f_title (form s)) && required (f_body (form s))
          then negb (mem (id d) (ids (posts s)))
          else true
      end
  | _ => true
  end.

Fixpoint fresh_replies (acts : list Action) (s : State) : bool :=
  match acts with
  | [] => true
  | a :: rest => reply_fresh a s && fresh_replies rest (step a s)
  end.

(** ** Sample data *)

(** An axios error that carries a response of the given status. *)
Definition http (status : Z) : ApiError := mkApiError true (Some status) true.

Definition post7 : Post := mkPost 7 "old" "old" 3.
Definition draft7 : PostFormData := mkPostFormData "new" "new2".

(** The record of id 7 opened for edit. *)
Definition editing7 : State :=
  exec (handleEdit post7) (mount [mkPost 1 "a" "b" 1; post7; mkPost 9 "x" "y" 2]).

(** Two creates, both answered by the server with id 101. *)
Definition create_twice : list Action :=
  [AddNew; TypeIn (Some "T") (Some "B"); SubmitForm (Resolved (mkPost 101 "T" "B" 1));
   AddNew; TypeIn (Some "U") (Some "C"); SubmitForm (Resolved (mkPost 101 "U" "C" 1))].

(** A create, an edit of the created record, and its delete. *)
Definition create_edit_delete : list Action :=
  [Fetch None (Resolved (Some [mkPost 1 "a" "b" 1; mkPost 2 "c" "d" 1]));
   AddNew; TypeIn (Some "T") (Some "B"); SubmitForm (Resolved (mkPost 101 "T" "B" 1));
   EditPost (mkPost 101 "T" "B" 1); TypeIn (Some "T2") (Some "B");
   SubmitForm (Rejected (http 500));
   DeletePost 101 (Rejected (http 404))].

(** ** Mounting the table (the two [useEffect] of PostsTable)

    The first effect calls [fetchPosts] when there is an initial error or no
    post; the second fires the error notification of the initial error.
    [fetchPosts] runs up to its [await] (it sets [loading] and issues the
    GET) before the second effect runs, and the reply arrives after both
    effects have run: whatever [fetchPosts] notifies comes after the
    notification of the second effect. *)
Definition mountEffects (initialError : option string)
    (reply : Reply (option (list Post))) : M unit :=
  fun s =>
    let refetch := truthy initialError || (List.length (posts s) =? 0)%nat in
    ((match initialError with
      | Some msg =>
          if truthy initialError
          then showNotification error "Error Loading Data" msg
          else ret tt
      | None => ret tt
      end) ;;
     (if refetch then fetchPosts initialError reply else ret tt)) s.

(** ** The page (pages/index.tsx)

    [Home] keeps [initialPosts], [error] and [loading]; it shows a spinner
    while [loading] and then renders the table with [initialPosts] and
    [error] as its props. *)
Record HomeState := mkHome {
  h_initialPosts : list Post;
  h_error : option string;
  h_loading : bool
}.

Definition Home_init : HomeState := mkHome [] None true.

(** The [data] of the GET reply as [Home] probes it: falsy ([!response.data]),
    an array, or anything else. *)
Inductive GetData :=
| NoData
| PostsArray (l : list Post)
| NotAnArray.

(** [fetchInitialPosts]: a falsy [data] throws inside the [try]; the [catch]
    sets the error whatever was thrown; the [finally] clears [loading]. *)
Definition fetchInitialPosts (reply : Reply GetData) (h : HomeState) : HomeState :=
  match reply with
  | Resolved (PostsArray l) => mkHome l (h_error h) false
  | Resolved NotAnArray => mkHome [] (h_error h) false
  | Resolved NoData
  | Rejected _ =>
      mkHome (h_initialPosts h) (Some "Failed to fetch initial posts") false
  end.

(** What [Home] renders: nothing of the table while [loading], then the
    table mounted with the two props, its effects run with the reply of the
    table's own GET. *)
Definition Home_render (h : HomeState)
    (table_reply : Reply (option (list Post))) : option State :=
  if h_loading h then None
  else Some (exec (mountEffects (h_error h) table_reply)
                  (mount (h_initialPosts h))).

(** ** Bookkeeping for statements over sequences of actions *)

(** The ids the server handed out in the replies of a sequence. *)
Fixpoint served (acts : list Action) : list Z :=
  match acts with
  | [] => []
  | Fetch _ (Resolved (Some l)) :: rest => (ids l ++ served rest)%list
  | SubmitForm (Resolved d) :: rest => id d :: served rest
  | _ :: rest => served rest
  end.

(** A request whose payload, if it has one, has a title and a body that are
    not the empty text. *)
Definition payload_ok (rq : Request) : bool :=
  match rq with
  | POST_posts t b _ => negb (String.eqb t "") && negb (String.eqb b "")
  | PUT_post _ t b _ _ => negb (String.eqb t "") && negb (String.eqb b "")
  | GET_posts | DELETE_post _ => true
  end.

(** * Properties *)

(** ** How the handlers evaluate *)

Ltac handler :=
  unfold exec, submit, handleSubmit, handleDelete, fetchPosts, handleEdit,
    handleModalCancel, addNewPost, onFinishFailed, typeFields, handleApiError,
    try_finally, try_catch, throw, bind, ret, axios, setPosts, setLoading,
    setIsModalOpen, setEditingPost, setForm, showNotification, modify;
  cbn [fst snd posts loading isModalOpen editingPost form notifications sent].

Section UpdatePath.
Variables (s : State) (ep : Post) (values : PostFormData).
Hypothesis editing : editingPost s = Some ep.

Let merged : list Post :=
  map (fun post => if id post =? id ep then spread ep values else post)
      (posts s).
Let put : Request :=
  PUT_post (id ep) (fd_title values) (fd_body values) (id ep) (userId ep).

Lemma handleSubmit_update_resolved (d : Post) :
  exec (handleSubmit (Resolved d) values) s =
  mkState merged false false None (mkForm None None)
    (notifications s ++
       [mkNotification success "Post Updated"
          "Your post has been successfully updated (simulated)"])
    (sent s ++ [put]).
Proof. handler. rewrite editing. reflexivity. Qed.

Lemma handleSubmit_update_500 (e : ApiError) :
  isAxiosError e = true -> response e = Some 500 ->
  exec (handleSubmit (Rejected e) values) s =
  mkState merged false false None (mkForm None None)
    (notifications s ++
       [mkNotification success "Post Updated"
          "Update simulated successfully (JSONPlaceholder API)"])
    (sent s ++ [put]).
Proof.
  intros Hax Hst. handler. rewrite editing. cbn.
  unfold status_is. rewrite Hax, Hst. reflexivity.
Qed.

Lemma handleSubmit_update_rethrown (e : ApiError) :
  isAxiosError e && status_is e 500 = false ->
  exec (handleSubmit (Rejected e) values) s =
  mkState (posts s) false (isModalOpen s) (Some ep) (form s)
    (notifications s ++
       [mkNotification error "Error updating post" (errorMessage e)])
    (sent s ++ [put]).
Proof.
  intros Hno. handler. rewrite editing. cbn. rewrite Hno. reflexivity.
Qed.
End UpdatePath.

Section CreatePath.
Variables (s : State) (values : PostFormData).
Hypothesis creating : editingPost s = None.

Let post : Request := POST_posts (fd_title values) (fd_body values) 1.

Lemma handleSubmit_create_resolved (d : Post) :
  exec (handleSubmit (Resolved d) values) s =
  mkState (d :: posts s) false false None (mkForm None None)
    (notifications s ++
       [mkNotification success "Post Created"
          "Your new post has been successfully created"])
    (sent s ++ [post]).
Proof. handler. rewrite creating. reflexivity. Qed.

Lemma handleSubmit_create_rejected (e : ApiError) :
  exec (handleSubmit (Rejected e) values) s =
  mkState (posts s) false (isModalOpen s) None (form s)
    (notifications s ++
       [mkNotification error "Error creating post" (errorMessage e)])
    (sent s ++ [post]).
Proof. handler. rewrite creating. reflexivity. Qed.
End CreatePath.

Section DeletePath.
Variables (s : State) (postId : Z).

Let kept : list Post := filter (fun post => negb (id post =? postId)) (posts s).
Let deleted : State :=
  mkState kept false (isModalOpen s) (editingPost s) (form s)
    (notifications s ++
       [mkNotification success "Post Deleted"
          "The post has been successfully deleted (simulated)"])
    (sent s ++ [DELETE_post postId]).

Lemma handleDelete_resolved (u : unit) :
  exec (handleDelete (Resolved u) postId) s = deleted.
Proof. reflexivity. Qed.

Lemma handleDelete_swallowed (e : ApiError) :
  isAxiosError e && (status_is e 404 || status_is e 500) = true ->
  exec (handleDelete (Rejected e) postId) s = deleted.
Proof. intros Hsim. handler. rewrite Hsim. reflexivity. Qed.

Lemma handleDelete_rethrown (e : ApiError) :
  isAxiosError e && (status_is e 404 || status_is e 500) = false ->
  exec (handleDelete (Rejected e) postId) s =
  mkState (posts s) false (isModalOpen s) (editingPost s) (form s)
    (notifications s ++
       [mkNotification error "Error deleting post" (errorMessage e)])
    (sent s ++ [DELETE_post postId]).
Proof. intros Hno. handler. rewrite Hno. reflexivity. Qed.
End DeletePath.

Lemma status_is_iff (e : ApiError) (n : Z) :
  status_is e n = true <-> response e = Some n.
Proof.
  unfold status_is. destruct (response e) as [st|]; split; intros H;
    try discriminate.
  - apply Z.eqb_eq in H. now subst.
  - injection H as ->. apply Z.eqb_refl.
Qed.

Lemma handleDelete_applied (s : State) (postId : Z) (reply : Reply unit) :
  (exists u, reply = Resolved u)
  \/ (exists e, reply = Rejected e /\ isAxiosError e = true
                /\ (response e = Some 404 \/ response e = Some 500)) ->
  exec (handleDelete reply postId) s =
  mkState (filter (fun post => negb (id post =? postId)) (posts s)) false
    (isModalOpen s) (editingPost s) (form s)
    (notifications s ++
       [mkNotification success "Post Deleted"
          "The post has been successfully deleted (simulated)"])
    (sent s ++ [DELETE_post postId]).
Proof.
  intros [[u ->] | (e & -> & Hax & Hst)].
  - apply handleDelete_resolved.
  - apply handleDelete_swallowed. rewrite Hax. cbn.
    apply orb_true_iff. destruct Hst as [Hst | Hst];
      [left | right]; now apply status_is_iff.
Qed.

(** ** Error messages (handleApiError) *)

(** C6: the notification fired by the real-error handler is an error
    notification whose message is fixed by the shape of the error: a
    response with status 404 gives "The requested resource was not found",
    400 gives "Invalid request data", 500 gives "Server error occurred", any
    other status gives "Error: <status>"; no response but a request gives
    "No response received from server"; anything else gives "An unexpected
    error occurred". *)
Theorem handleApiError_message (e : ApiError) (context : string) (s : State) :
  (exists m,
     exec (handleApiError e context) s =
     mkState (posts s) (loading s) (isModalOpen s) (editingPost s) (form s)
       (notifications s ++ [mkNotification error ("Error " ++ context) m])
       (sent s)
     /\ (response e = Some 404 -> m = "The requested resource was not found")
     /\ (response e = Some 400 -> m = "Invalid request data")
     /\ (response e = Some 500 -> m = "Server error occurred")
     /\ (forall status, response e = Some status ->
           status <> 404 -> status <> 400 -> status <> 500 ->
           m = "Error: " ++ string_of_status status)
     /\ (response e = None -> request e = true ->
           m = "No response received from server")
     /\ (response e = None -> request e = false ->
           m = "An unexpected error occurred")).
Proof.
  exists (errorMessage e). split; [reflexivity|].
  unfold errorMessage.
  destruct (response e) as [st|].
  - repeat split; try discriminate.
    + intros [= ->]. reflexivity.
    + intros [= ->]. reflexivity.
    + intros [= ->]. reflexivity.
    + intros status [= ->] H404 H400 H500.
      apply Z.eqb_neq in H404, H400, H500. now rewrite H404, H400, H500.
  - repeat split; try discriminate.
    + intros _ ->. reflexivity.
    + intros _ ->. reflexivity.
Qed.

Lemma handleApiError_message_witness :
  exists m,
    notifications (exec (handleApiError (mkApiError true (Some 418) true)
                           "creating post") (mount [])) =
    [mkNotification error "Error creating post" m]
    /\ m = "Error: 418".
Proof.
  destruct (handleApiError_message (mkApiError true (Some 418) true)
              "creating post" (mount []))
    as (m & Hrun & _ & _ & _ & Hother & _).
  exists m. split.
  - rewrite Hrun. reflexivity.
  - apply (Hother 418); [reflexivity | lia | lia | lia].
Defined.

(** ** Load *)

(** C9: when the GET of the load fails with HTTP 500, [posts] is what it was
    before (empty when the component was mounted with nothing), an error
    notification with message "Server error occurred" fires, and the busy
    flag is false afterwards. *)
Theorem fetchPosts_500 (initialError : option string) (e : ApiError) (s : State) :
  response e = Some 500 ->
  let s' := exec (fetchPosts initialError (Rejected e)) s in
  posts s' = posts s
  /\ (posts s = [] -> posts s' = [])
  /\ notifications s' =
     (notifications s ++
       [mkNotification error "Error fetching posts" "Server error occurred"])%list
  /\ loading s' = false.
Proof.
  intros Hst. handler. unfold errorMessage. rewrite Hst. cbn.
  repeat split; auto.
Qed.

Lemma fetchPosts_500_witness :
  let s' := exec (fetchPosts None (Rejected (mkApiError true (Some 500) true)))
                 (mount []) in
  posts s' = posts (mount [])
  /\ (posts (mount []) = [] -> posts s' = [])
  /\ notifications s' =
     (notifications (mount []) ++
       [mkNotification error "Error fetching posts" "Server error occurred"])%list
  /\ loading s' = false.
Proof.
  apply (fetchPosts_500 None (mkApiError true (Some 500) true) (mount [])).
  reflexivity.
Defined.

(** ** Delete *)

(** C3: a delete of id [postId] whose DELETE succeeds, or fails with an
    axios error of status 404 or 500, removes the records of that id
    (keeping the others in order) and fires a success notification; after
    any other failure [posts] is unchanged and an error notification
    fires. *)
Theorem handleDelete_outcomes (s : State) (postId : Z) :
  (forall reply,
     (exists u, reply = Resolved u)
     \/ (exists e, reply = Rejected e /\ isAxiosError e = true
                   /\ (response e = Some 404 \/ response e = Some 500)) ->
     let s' := exec (handleDelete reply postId) s in
     posts s' = filter (fun post => negb (id post =? postId)) (posts s)
     /\ (forall p, In p (posts s') <-> In p (posts s) /\ id p <> postId)
     /\ notifications s' =
        (notifications s ++
          [mkNotification success "Post Deleted"
             "The post has been successfully deleted (simulated)"])%list)
  /\ (forall e,
        ~ (isAxiosError e = true
           /\ (response e = Some 404 \/ response e = Some 500)) ->
        let s' := exec (handleDelete (Rejected e) postId) s in
        posts s' = posts s
        /\ notifications s' =
           (notifications s ++
             [mkNotification error "Error deleting post" (errorMessage e)])%list).
Proof.
  split.
  - intros reply Hreply s'.
    assert (Hs' := handleDelete_applied s postId reply Hreply). fold s' in Hs'.
    rewrite Hs'. cbn. split; [reflexivity | split; [|reflexivity]].
    intros p. rewrite filter_In, negb_true_iff, Z.eqb_neq. tauto.
  - intros e Hno s'. unfold s'. rewrite handleDelete_rethrown.
    + split; reflexivity.
    + destruct (isAxiosError e) eqn:Hax; [cbn | reflexivity].
      apply orb_false_iff. split; apply not_true_iff_false; intros Hst;
        apply status_is_iff in Hst; tauto.
Qed.

Lemma handleDelete_outcomes_witness :
  let s := mount [mkPost 1 "a" "b" 1; mkPost 2 "c" "d" 1] in
  posts (exec (handleDelete (Rejected (mkApiError true (Some 404) true)) 1) s)
  = [mkPost 2 "c" "d" 1]
  /\ posts (exec (handleDelete (Rejected (mkApiError true (Some 400) true)) 1) s)
     = posts s.
Proof.
  intros s. split.
  - apply (proj1 (handleDelete_outcomes s 1)
             (Rejected (mkApiError true (Some 404) true))).
    right. exists (mkApiError true (Some 404) true).
    cbn. repeat split; auto.
  - apply (proj2 (handleDelete_outcomes s 1) (mkApiError true (Some 400) true)).
    cbn. intros [_ [H | H]]; discriminate H.
Defined.

(** C8: when no record of [posts] has id [k], the removal step of delete
    ([filter] keeping the records whose id differs from [k]) leaves [posts]
    as it is, in content and in length. *)
Theorem handleDelete_absent_id (s : State) (k : Z) (u : unit) :
  (forall p, In p (posts s) -> id p <> k) ->
  filter (fun post => negb (id post =? k)) (posts s) = posts s
  /\ posts (exec (handleDelete (Resolved u) k) s) = posts s
  /\ List.length (posts (exec (handleDelete (Resolved u) k) s)) = List.length (posts s).
Proof.
  intros Habsent.
  assert (Hid : filter (fun post => negb (id post =? k)) (posts s) = posts s).
  { induction (posts s) as [|p l IH]; [reflexivity|].
    cbn. assert (Hp : id p <> k) by (apply Habsent; now left).
    apply Z.eqb_neq in Hp. rewrite Hp. cbn. f_equal.
    apply IH. intros q Hq. apply Habsent. now right. }
  rewrite handleDelete_resolved. cbn. rewrite Hid. auto.
Qed.

Lemma handleDelete_absent_id_witness :
  let s := mount [mkPost 1 "a" "b" 1; mkPost 2 "c" "d" 1] in
  filter (fun post => negb (id post =? 5)) (posts s) = posts s
  /\ posts (exec (handleDelete (Resolved tt) 5) s) = posts s
  /\ List.length (posts (exec (handleDelete (Resolved tt) 5) s)) = List.length (posts s).
Proof.
  intros s. apply (handleDelete_absent_id s 5 tt).
  cbn. intros p [<- | [<- | []]]; cbn; lia.
Defined.

(** ** Create *)

(** C5: a create (a submit with no edit target) sends the draft with
    [userId] 1.  When the POST succeeds the record the server returned is put
    in front of [posts], a success notification fires and the edit session
    is closed; when it fails, whatever the failure, [posts] is unchanged and
    an error notification fires. *)
Theorem handleSubmit_create (s : State) (values : PostFormData) (reply : Reply Post) :
  editingPost s = None ->
  let s' := exec (handleSubmit reply values) s in
  sent s' = (sent s ++ [POST_posts (fd_title values) (fd_body values) 1])%list
  /\ loading s' = false
  /\ (forall d, reply = Resolved d ->
        posts s' = d :: posts s
        /\ nth_error (posts s') 0 = Some d
        /\ notifications s' =
           (notifications s ++
              [mkNotification success "Post Created"
                 "Your new post has been successfully created"])%list
        /\ isModalOpen s' = false
        /\ editingPost s' = None
        /\ form s' = mkForm None None)
  /\ (forall e, reply = Rejected e ->
        posts s' = posts s
        /\ notifications s' =
           (notifications s ++
              [mkNotification error "Error creating post" (errorMessage e)])%list).
Proof.
  intros Hnone s'. unfold s'. destruct reply as [d | e].
  - rewrite handleSubmit_create_resolved by exact Hnone. cbn.
    split; [reflexivity | split; [reflexivity | split]].
    + intros d' [= <-]. repeat apply conj; reflexivity.
    + discriminate.
  - rewrite handleSubmit_create_rejected by exact Hnone. cbn.
    split; [reflexivity | split; [reflexivity | split]].
    + discriminate.
    + intros e' [= <-]. split; reflexivity.
Qed.

Lemma handleSubmit_create_witness :
  let s := exec addNewPost (mount [mkPost 1 "a" "b" 1]) in
  let s' := exec (handleSubmit (Resolved (mkPost 101 "T" "B" 1))
                    (mkPostFormData "T" "B")) s in
  sent s' = [POST_posts "T" "B" 1]
  /\ posts s' = [mkPost 101 "T" "B" 1; mkPost 1 "a" "b" 1]
  /\ isModalOpen s' = false.
Proof.
  intros s s'.
  destruct (handleSubmit_create s (mkPostFormData "T" "B")
              (Resolved (mkPost 101 "T" "B" 1)) eq_refl)
    as (Hsent & _ & Hok & _).
  destruct (Hok _ eq_refl) as (Hposts & _ & _ & Hclosed & _).
  repeat split; assumption.
Defined.

(** ** Update *)

Lemma ids_replace (k : Z) (u : Post) (l : list Post) :
  id u = k ->
  ids (map (fun post => if id post =? k then u else post) l) = ids l.
Proof.
  intros Hu. unfold ids. induction l as [|p l IH]; [reflexivity|].
  cbn. rewrite IH. f_equal.
  destruct (Z.eqb_spec (id p) k); congruence.
Qed.

Lemma replace_absent (k : Z) (u : Post) (l : list Post) :
  (forall p, In p l -> id p <> k) ->
  map (fun post => if id post =? k then u else post) l = l.
Proof.
  induction l as [|p l IH]; intros Habsent; [reflexivity|].
  cbn. rewrite IH by (intros q Hq; apply Habsent; now right).
  assert (Hp : id p <> k) by (apply Habsent; now left).
  apply Z.eqb_neq in Hp. now rewrite Hp.
Qed.

(** C4: when an update is applied locally (the PUT succeeded, or failed in
    the way that is simulated as a success), the list keeps its length and,
    position by position, a record whose id is the target's becomes the
    target's id and userId with the draft's title and body, and any other
    record stays as it was; with unique ids at most one position holds the
    target's id; and when no record has the target's id the list is
    unchanged. *)
Theorem handleSubmit_update_merge
    (s : State) (ep : Post) (values : PostFormData) (reply : Reply Post) :
  editingPost s = Some ep ->
  (exists d, reply = Resolved d)
  \/ (exists e, reply = Rejected e /\ isAxiosError e = true
                /\ response e = Some 500) ->
  let posts' := posts (exec (handleSubmit reply values) s) in
  List.length posts' = List.length (posts s)
  /\ (forall i p, nth_error (posts s) i = Some p ->
        nth_error posts' i =
        Some (if id p =? id ep
              then mkPost (id ep) (fd_title values) (fd_body values) (userId ep)
              else p))
  /\ ids posts' = ids (posts s)
  /\ (NoDup (ids (posts s)) ->
      forall i j p q,
        nth_error (posts s) i = Some p -> nth_error (posts s) j = Some q ->
        id p = id ep -> id q = id ep -> i = j)
  /\ ((forall p, In p (posts s) -> id p <> id ep) -> posts' = posts s).
Proof.
  intros Hed Happlied posts'.
  assert (Hposts : posts' =
    map (fun post => if id post =? id ep then spread ep values else post)
        (posts s)).
  { unfold posts'. destruct Happlied as [[d ->] | (e & -> & Hax & Hst)].
    - now rewrite (handleSubmit_update_resolved s ep values Hed).
    - now rewrite (handleSubmit_update_500 s ep values Hed e Hax Hst). }
  rewrite Hposts. repeat apply conj.
  - apply length_map.
  - intros i p Hi. rewrite nth_error_map, Hi. reflexivity.
  - now apply ids_replace.
  - intros Hnd i j p q Hi Hj Hp Hq.
    apply (proj1 (NoDup_nth_error (ids (posts s))) Hnd).
    + unfold ids. rewrite length_map. apply nth_error_Some. congruence.
    + unfold ids. rewrite !nth_error_map, Hi, Hj. cbn. congruence.
  - apply replace_absent.
Qed.

Lemma handleSubmit_update_merge_witness :
  nth_error (posts (exec (handleSubmit (Rejected (http 500)) draft7) editing7)) 1
  = Some (mkPost 7 "new" "new2" 3).
Proof.
  apply (proj1 (proj2 (handleSubmit_update_merge editing7 post7 draft7
                         (Rejected (http 500)) eq_refl
                         (or_intror (ex_intro _ (http 500)
                                      (conj eq_refl (conj eq_refl eq_refl))))))
          1%nat post7).
  reflexivity.
Defined.

(** C1, as the code has it: a PUT that fails with an axios error of status
    500 is simulated as a success (the merge a success would do, a success
    notification saying the update was simulated, the edit session closed);
    a PUT that fails with status 404 is a real error ([posts] unchanged, the
    error notification "The requested resource was not found", the edit
    session left open). *)
Theorem handleSubmit_update_simulated
    (s : State) (ep : Post) (values : PostFormData) (e : ApiError) :
  editingPost s = Some ep ->
  let s' := exec (handleSubmit (Rejected e) values) s in
  (isAxiosError e = true -> response e = Some 500 ->
     (forall d, posts s' = posts (exec (handleSubmit (Resolved d) values) s))
     /\ posts s' =
        map (fun post => if id post =? id ep then spread ep values else post)
            (posts s)
     /\ notifications s' =
        (notifications s ++
           [mkNotification success "Post Updated"
              "Update simulated successfully (JSONPlaceholder API)"])%list
     /\ contains "simulated"
          "Update simulated successfully (JSONPlaceholder API)" = true
     /\ isModalOpen s' = false
     /\ editingPost s' = None
     /\ form s' = mkForm None None)
  /\ (response e = Some 404 ->
        posts s' = posts s
        /\ notifications s' =
           (notifications s ++
              [mkNotification error "Error updating post"
                 "The requested resource was not found"])%list
        /\ isModalOpen s' = isModalOpen s
        /\ editingPost s' = Some ep
        /\ form s' = form s).
Proof.
  intros Hed s'. unfold s'. split.
  - intros Hax Hst.
    rewrite (handleSubmit_update_500 s ep values Hed e Hax Hst). cbn.
    repeat apply conj; auto.
    intros d. now rewrite (handleSubmit_update_resolved s ep values Hed).
  - intros Hst.
    rewrite (handleSubmit_update_rethrown s ep values Hed).
    + cbn. unfold errorMessage. rewrite Hst. cbn. repeat apply conj; auto.
    + unfold status_is. rewrite Hst. apply andb_false_r.
Qed.

Lemma handleSubmit_update_simulated_witness :
  posts (exec (handleSubmit (Rejected (http 500)) draft7) editing7)
  = [mkPost 1 "a" "b" 1; mkPost 7 "new" "new2" 3; mkPost 9 "x" "y" 2]
  /\ posts (exec (handleSubmit (Rejected (http 404)) draft7) editing7)
     = posts editing7.
Proof.
  split.
  - apply (proj1 (handleSubmit_update_simulated editing7 post7 draft7 (http 500)
                    eq_refl) eq_refl eq_refl).
  - apply (proj2 (handleSubmit_update_simulated editing7 post7 draft7 (http 404)
                    eq_refl) eq_refl).
Defined.

(** C1 as stated fails: with the record of id 7 open for edit and the PUT
    failing with HTTP 404, the record is not merged, the notification is an
    error and the edit session stays open. *)
Lemma update_404_not_simulated :
  let s' := exec (handleSubmit (Rejected (http 404)) draft7) editing7 in
  posts s' <>
    map (fun post => if id post =? 7 then spread post7 draft7 else post)
        (posts editing7)
  /\ nth_error (posts s') 1 = Some (mkPost 7 "old" "old" 3)
  /\ notifications s' =
     [mkNotification error "Error updating post"
        "The requested resource was not found"]
  /\ isModalOpen s' = true
  /\ editingPost s' = Some post7.
Proof.
  cbn. repeat apply conj; try reflexivity. discriminate.
Qed.

(** C10 as stated fails for update: the local mutation is the same after a
    PUT that succeeded and after one that failed with HTTP 500, but the two
    notifications are worded differently, and the second is not "Your post
    has been successfully updated (simulated)". *)
Lemma update_wording_differs :
  let ok := exec (handleSubmit (Resolved post7) draft7) editing7 in
  let simulated := exec (handleSubmit (Rejected (http 500)) draft7) editing7 in
  posts ok = posts simulated
  /\ posts ok <> posts editing7
  /\ map description (notifications ok) =
     ["Your post has been successfully updated (simulated)"]
  /\ map description (notifications simulated) =
     ["Update simulated successfully (JSONPlaceholder API)"]
  /\ map description (notifications ok)
     <> map description (notifications simulated).
Proof.
  cbn. repeat apply conj; try reflexivity; discriminate.
Qed.

(** C10, as the code has it: whenever an update or a delete applies its
    local mutation, after a real success as well, the notification is a
    success whose description contains "simulated".  Delete words it the same
    in every such case.  Update words it "Your post has been successfully
    updated (simulated)" after a PUT that succeeded and "Update simulated
    successfully (JSONPlaceholder API)" after a PUT that failed with status
    500. *)
Theorem mutation_notification_wording (s : State) :
  (forall ep values reply,
     editingPost s = Some ep ->
     (exists d, reply = Resolved d)
     \/ (exists e, reply = Rejected e /\ isAxiosError e = true
                   /\ response e = Some 500) ->
     exists n,
       notifications (exec (handleSubmit reply values) s) =
       (notifications s ++ [n])%list
       /\ severity n = success
       /\ contains "simulated" (description n) = true
       /\ ((exists d, reply = Resolved d) ->
           description n = "Your post has been successfully updated (simulated)")
       /\ ((exists e, reply = Rejected e) ->
           description n = "Update simulated successfully (JSONPlaceholder API)"))
  /\ (forall postId reply,
        (exists u, reply = Resolved u)
        \/ (exists e, reply = Rejected e /\ isAxiosError e = true
                      /\ (response e = Some 404 \/ response e = Some 500)) ->
        exists n,
          notifications (exec (handleDelete reply postId) s) =
          (notifications s ++ [n])%list
          /\ severity n = success
          /\ contains "simulated" (description n) = true
          /\ description n = "The post has been successfully deleted (simulated)").
Proof.
  split.
  - intros ep values reply Hed [[d ->] | (e & -> & Hax & Hst)].
    + rewrite (handleSubmit_update_resolved s ep values Hed). cbn.
      eexists. split; [reflexivity|]. cbn.
      repeat apply conj; try reflexivity.
      intros [e He]. discriminate He.
    + rewrite (handleSubmit_update_500 s ep values Hed e Hax Hst). cbn.
      eexists. split; [reflexivity|]. cbn.
      repeat apply conj; try reflexivity.
      intros [d Hd]. discriminate Hd.
  - intros postId reply Hreply.
    rewrite (handleDelete_applied s postId reply Hreply). cbn.
    eexists. split; [reflexivity|]. cbn. repeat apply conj; reflexivity.
Qed.

Lemma mutation_notification_wording_witness :
  (exists n,
     notifications (exec (handleSubmit (Resolved post7) draft7) editing7) = [n]
     /\ contains "simulated" (description n) = true)
  /\ (exists n,
        notifications (exec (handleDelete (Rejected (http 404)) 7) editing7) = [n]
        /\ contains "simulated" (description n) = true).
Proof.
  split.
  - destruct (proj1 (mutation_notification_wording editing7)
                post7 draft7 (Resolved post7) eq_refl
                (or_introl (ex_intro _ post7 eq_refl)))
      as (n & Hn & _ & Hsim & _).
    exists n. split; assumption.
  - destruct (proj2 (mutation_notification_wording editing7)
                7 (Rejected (http 404))
                (or_intror (ex_intro _ (http 404)
                   (conj eq_refl (conj eq_refl (or_introl eq_refl))))))
      as (n & Hn & _ & Hsim & _).
    exists n. split; assumption.
Defined.

(** ** Shared lemmas on submitting *)

(** Case analysis on how [handleSubmit] ends, by the edit target, the reply
    and the guard of the inner [catch]. *)
Ltac submit_cases s reply :=
  let ep := fresh "ep" in
  let Hed := fresh "Hed" in
  let d := fresh "d" in
  let e := fresh "e" in
  let Hsim := fresh "Hsim" in
  let Hax := fresh "Hax" in
  let Hst := fresh "Hst" in
  destruct (editingPost s) as [ep|] eqn:Hed; destruct reply as [d | e];
  [ rewrite (handleSubmit_update_resolved s ep _ Hed)
  | destruct (isAxiosError e && status_is e 500) eqn:Hsim;
    [ pose proof Hsim as Hax; apply andb_true_iff in Hax as [Hax Hst];
      apply status_is_iff in Hst;
      rewrite (handleSubmit_update_500 s ep _ Hed e Hax Hst)
    | rewrite (handleSubmit_update_rethrown s ep _ Hed e Hsim) ]
  | rewrite (handleSubmit_create_resolved s _ Hed)
  | rewrite (handleSubmit_create_rejected s _ Hed) ].

Lemma required_true (str : string) : str <> "" -> required (Some str) = true.
Proof.
  intros Hne. cbn. apply negb_true_iff. now apply String.eqb_neq.
Qed.

Lemma submit_valid (reply : Reply Post) (s : State) (t b : string) :
  form s = mkForm (Some t) (Some b) -> t <> "" -> b <> "" ->
  exec (submit reply) s = exec (handleSubmit reply (mkPostFormData t b)) s.
Proof.
  intros Hform Ht Hb. unfold exec, submit. rewrite Hform.
  cbn [f_title f_body fieldValue].
  now rewrite (required_true _ Ht), (required_true _ Hb).
Qed.

Lemma handleSubmit_sent (reply : Reply Post) (values : PostFormData) (s : State) :
  sent (exec (handleSubmit reply values) s)
  = (sent s ++
       [match editingPost s with
        | Some ep => PUT_post (id ep) (fd_title values) (fd_body values)
                              (id ep) (userId ep)
        | None => POST_posts (fd_title values) (fd_body values) 1
        end])%list.
Proof. submit_cases s reply; reflexivity. Qed.

(** ** Validation *)

(** C7 as stated fails: a title made of one space passes the [required]
    rule, so the create path runs (the POST is sent, the returned record is
    added, the dialog closes) and no warning fires. *)
Lemma whitespace_title_is_submitted :
  let s := run [AddNew; TypeIn (Some " ") (Some "B")] (mount []) in
  let s' := exec (submit (Resolved (mkPost 101 " " "B" 1))) s in
  blank " " = true
  /\ sent s' = [POST_posts " " "B" 1]
  /\ posts s' = [mkPost 101 " " "B" 1]
  /\ map severity (notifications s') = [success]
  /\ isModalOpen s' = false.
Proof. cbn. repeat apply conj; reflexivity. Qed.

(** C7, as the code has it: when the title or the body of the form is
    missing or the empty text, pressing submit does not reach
    [handleSubmit]: no request is sent, the only effect is the warning
    notification "Validation Error", and the edit session (dialog, target
    and field values) is as it was.  A text made only of white space, and
    not empty, passes the rule; so when the title and the body are both not
    empty, made of white space or not, the draft is submitted:
    [handleSubmit] runs on those values, the PUT or POST that carries them
    goes out, and no warning fires. *)
Theorem submit_rejects_empty (s : State) (reply : Reply Post) :
  (f_title (form s) = None \/ f_title (form s) = Some ""
   \/ f_body (form s) = None \/ f_body (form s) = Some "" ->
   submit reply s = onFinishFailed s
   /\ exec (submit reply) s =
      mkState (posts s) (loading s) (isModalOpen s) (editingPost s) (form s)
        (notifications s ++
           [mkNotification warning "Validation Error"
              "Please check the form fields and try again"])
        (sent s))
  /\ (forall str, blank str = true -> str <> "" -> required (Some str) = true)
  /\ (forall t b,
        form s = mkForm (Some t) (Some b) -> t <> "" -> b <> "" ->
        let s' := exec (submit reply) s in
        s' = exec (handleSubmit reply (mkPostFormData t b)) s
        /\ sent s' =
           (sent s ++
              [match editingPost s with
               | Some ep => PUT_post (id ep) t b (id ep) (userId ep)
               | None => POST_posts t b 1
               end])%list
        /\ (forall n, In n (notifications s') ->
              In n (notifications s) \/ severity n <> warning)).
Proof.
  split; [|split].
  - intros Hempty.
    assert (Hrules : required (f_title (form s)) && required (f_body (form s))
                     = false).
    { destruct Hempty as [H | [H | [H | H]]]; rewrite H; cbn;
        auto using andb_false_r. }
    unfold exec, submit. rewrite Hrules. split; reflexivity.
  - intros str _ Hne. now apply required_true.
  - intros t b Hform Ht Hb s'. unfold s'.
    rewrite (submit_valid reply s t b Hform Ht Hb).
    split; [reflexivity | split; [apply handleSubmit_sent|]].
    submit_cases s reply; cbn; intros n Hin;
      apply in_app_or in Hin as [Hin | [<- | []]]; auto;
      right; discriminate.
Qed.

Lemma submit_rejects_empty_witness :
  (let s := run [EditPost post7; TypeIn (Some "") (Some "old")] (mount [post7]) in
   let s' := exec (submit (Resolved post7)) s in
   sent s' = [] /\ posts s' = [post7] /\ isModalOpen s' = true
   /\ form s' = mkForm (Some "") (Some "old")
   /\ map message (notifications s') = ["Validation Error"])
  /\ required (Some "  ") = true
  /\ (let s := run [EditPost post7; TypeIn (Some "new") (Some " ")] (mount [post7]) in
      sent (exec (submit (Resolved post7)) s) = [PUT_post 7 "new" " " 7 3]).
Proof.
  split; [|split].
  - intros s s'.
    destruct (proj1 (submit_rejects_empty s (Resolved post7))
                (or_intror (or_introl eq_refl)))
      as [_ Hrun].
    unfold s'. rewrite Hrun. cbn. repeat apply conj; reflexivity.
  - apply (proj1 (proj2 (submit_rejects_empty (mount []) (Resolved post7)))
             "  " eq_refl).
    discriminate.
  - intros s.
    destruct (proj2 (proj2 (submit_rejects_empty s (Resolved post7)))
                "new" " " eq_refl ltac:(discriminate) ltac:(discriminate))
      as (_ & Hsent & _).
    exact Hsent.
Defined.

(** ** Uniqueness of ids *)

Lemma mem_In (k : Z) (l : list Z) : mem k l = true <-> In k l.
Proof.
  unfold mem. rewrite existsb_exists. split.
  - intros (x & Hx & Heq). apply Z.eqb_eq in Heq. now subst.
  - intros Hin. exists k. split; [exact Hin | apply Z.eqb_refl].
Qed.

Lemma distinct_NoDup (l : list Z) : distinct l = true <-> NoDup l.
Proof.
  induction l as [|k l IH]; cbn.
  - split; [constructor | reflexivity].
  - rewrite andb_true_iff, negb_true_iff, IH. split.
    + intros [Hk Hl]. constructor; [|exact Hl].
      intros Hin. apply mem_In in Hin. congruence.
    + intros Hnd. inversion Hnd as [|? ? Hk Hl]; subst. split; [|exact Hl].
      apply not_true_iff_false. intros Hin. now apply mem_In in Hin.
Qed.

Lemma NoDup_ids_filter (f : Post -> bool) (l : list Post) :
  NoDup (ids l) -> NoDup (ids (filter f l)).
Proof.
  unfold ids. induction l as [|p l IH]; cbn; intros Hnd; [constructor|].
  inversion Hnd as [|? ? Hp Hl]; subst.
  destruct (f p); cbn; [constructor|]; auto.
  intros Hin. apply Hp. apply in_map_iff in Hin as (q & Hq & Hin).
  apply filter_In in Hin as [Hin _]. apply in_map_iff. now exists q.
Qed.

Lemma posts_fetchPosts (initialError : option string)
    (reply : Reply (option (list Post))) (s : State) :
  posts (exec (fetchPosts initialError reply) s) =
  match reply with
  | Resolved (Some l) => l
  | _ => posts s
  end.
Proof.
  destruct reply as [[l|] | e]; handler; [|reflexivity|reflexivity].
  destruct (truthy initialError); reflexivity.
Qed.

Lemma step_keeps_ids_unique (a : Action) (s : State) :
  NoDup (ids (posts s)) -> reply_fresh a s = true ->
  NoDup (ids (posts (step a s))).
Proof.
  intros Hnd Hfresh. destruct a as [ie reply | | p | t b | reply | | k reply];
    cbn [step]; try exact Hnd.
  - rewrite posts_fetchPosts. destruct reply as [[l|] | e]; try exact Hnd.
    now apply distinct_NoDup.
  - unfold exec, submit. cbn [reply_fresh] in Hfresh.
    destruct (required (f_title (form s)) && required (f_body (form s)));
      [|exact Hnd].
    fold (exec (handleSubmit reply
                  (mkPostFormData (fieldValue (f_title (form s)))
                                  (fieldValue (f_body (form s))))) s).
    destruct (editingPost s) as [ep|] eqn:Hed.
    + destruct reply as [d | e].
      * rewrite (handleSubmit_update_resolved s ep _ Hed). cbn.
        now rewrite ids_replace.
      * destruct (isAxiosError e && status_is e 500) eqn:Hsim.
        -- apply andb_true_iff in Hsim as [Hax Hst].
           apply status_is_iff in Hst.
           rewrite (handleSubmit_update_500 s ep _ Hed e Hax Hst). cbn.
           now rewrite ids_replace.
        -- now rewrite (handleSubmit_update_rethrown s ep _ Hed e Hsim).
    + destruct reply as [d | e].
      * rewrite (handleSubmit_create_resolved s _ Hed). cbn.
        constructor; [|exact Hnd].
        apply negb_true_iff in Hfresh. intros Hin.
        apply mem_In in Hin. fold (ids (posts s)) in Hin. congruence.
      * now rewrite (handleSubmit_create_rejected s _ Hed).
  - destruct reply as [u | e].
    + rewrite handleDelete_resolved. cbn. now apply NoDup_ids_filter.
    + destruct (isAxiosError e && (status_is e 404 || status_is e 500)) eqn:Hsim.
      * rewrite (handleDelete_swallowed s k e Hsim). cbn.
        now apply NoDup_ids_filter.
      * now rewrite (handleDelete_rethrown s k e Hsim).
Qed.

(** C2 as stated fails: from the empty collection, two creates that the
    server both answers with id 101 leave two records of id 101. *)
Lemma create_twice_duplicates_id :
  NoDup (ids (posts (mount [])))
  /\ ids (posts (run create_twice (mount []))) = [101; 101]
  /\ ~ NoDup (ids (posts (run create_twice (mount [])))).
Proof.
  split; [constructor | split; [reflexivity|]].
  cbn. intros Hnd. inversion Hnd as [|? ? Hin _]; subst.
  apply Hin. now left.
Qed.

(** C2, as the code has it: starting from a collection with unique ids,
    [posts] has no two entries of one id at any point of a sequence of
    loads, creates, updates and deletes, provided that every load is
    answered with a collection of unique ids and every create that goes
    through is answered with a record whose id is not yet in [posts]. *)
Theorem ids_stay_unique (acts : list Action) (s : State) :
  NoDup (ids (posts s)) ->
  fresh_replies acts s = true ->
  forall n, NoDup (ids (posts (run (firstn n acts) s))).
Proof.
  revert s. induction acts as [|a rest IH]; intros s Hnd Hfresh n.
  - rewrite firstn_nil. exact Hnd.
  - destruct n as [|n]; [exact Hnd|].
    cbn [fresh_replies] in Hfresh. apply andb_true_iff in Hfresh as [Ha Hrest].
    cbn [firstn run fold_left]. apply IH; [|exact Hrest].
    now apply step_keeps_ids_unique.
Qed.

Lemma ids_stay_unique_witness :
  NoDup (ids (posts (run create_edit_delete (mount [])))).
Proof.
  apply (ids_stay_unique create_edit_delete (mount [])
           (NoDup_nil Z) eq_refl (List.length create_edit_delete)).
Defined.

(** * Further properties of the handlers *)

(** ** Shared evaluation lemmas *)

Lemma fetchPosts_state (initialError : option string)
    (reply : Reply (option (list Post))) (s : State) :
  exec (fetchPosts initialError reply) s =
  mkState
    (match reply with Resolved (Some l) => l | _ => posts s end)
    false (isModalOpen s) (editingPost s) (form s)
    (notifications s ++
       match reply with
       | Resolved (Some _) =>
           if truthy initialError
           then [mkNotification success "Data Loaded"
                   "Successfully retrieved posts"]
           else []
       | Resolved None => []
       | Rejected e =>
           [mkNotification error "Error fetching posts" (errorMessage e)]
       end)
    (sent s ++ [GET_posts]).
Proof.
  destruct reply as [[l|] | e]; handler.
  - destruct (truthy initialError); cbn; rewrite ?app_nil_r; reflexivity.
  - rewrite app_nil_r. reflexivity.
  - reflexivity.
Qed.

Ltac delete_cases s k reply :=
  let u := fresh "u" in
  let e := fresh "e" in
  let Hsim := fresh "Hsim" in
  destruct reply as [u | e];
  [ rewrite (handleDelete_resolved s k u)
  | destruct (isAxiosError e && (status_is e 404 || status_is e 500)) eqn:Hsim;
    [ rewrite (handleDelete_swallowed s k e Hsim)
    | rewrite (handleDelete_rethrown s k e Hsim) ] ].

Lemma required_value (v : option string) :
  required v = true -> v = Some (fieldValue v) /\ fieldValue v <> "".
Proof.
  destruct v as [str|]; cbn; [|discriminate].
  intros Hreq. apply negb_true_iff, String.eqb_neq in Hreq. auto.
Qed.

Lemma filter_absent (k : Z) (l : list Post) :
  ~ In k (ids l) -> filter (fun post => negb (id post =? k)) l = l.
Proof.
  induction l as [|p l IH]; cbn; intros Habsent; [reflexivity|].
  destruct (Z.eqb_spec (id p) k) as [Heq | Hne].
  - exfalso. apply Habsent. now left.
  - cbn. f_equal. apply IH. intros Hin. apply Habsent. now right.
Qed.

(** ** Load *)

(** X1: a load whose GET answers with an array replaces [posts] by that
    array, in the order returned, whatever [posts] was; no error notification
    fires, and the success notification "Data Loaded" fires exactly when the
    component was given a non-empty initial error. *)
Theorem fetchPosts_resolved (initialError : option string) (l : list Post)
    (s : State) :
  let s' := exec (fetchPosts initialError (Resolved (Some l))) s in
  posts s' = l
  /\ loading s' = false
  /\ (forall msg, initialError = Some msg -> msg <> "" ->
        notifications s' =
        (notifications s ++
           [mkNotification success "Data Loaded"
              "Successfully retrieved posts"])%list)
  /\ (initialError = None \/ initialError = Some "" ->
        notifications s' = notifications s)
  /\ isModalOpen s' = isModalOpen s
  /\ editingPost s' = editingPost s
  /\ form s' = form s.
Proof.
  intros s'. unfold s'. rewrite fetchPosts_state. cbn.
  split; [reflexivity|]. split; [reflexivity|]. split; [|split].
  - intros msg -> Hne. cbn. apply String.eqb_neq in Hne. now rewrite Hne.
  - intros [-> | ->]; cbn; apply app_nil_r.
  - repeat apply conj; reflexivity.
Qed.

Lemma fetchPosts_resolved_witness :
  let l := [mkPost 1 "a" "b" 1; mkPost 2 "c" "d" 1] in
  notifications (exec (fetchPosts (Some "Failed to fetch initial posts")
                         (Resolved (Some l))) (mount []))
  = [mkNotification success "Data Loaded" "Successfully retrieved posts"]
  /\ notifications (exec (fetchPosts (Some "") (Resolved (Some l))) (mount []))
     = [].
Proof.
  intros l. split.
  - apply (proj1 (proj2 (proj2 (fetchPosts_resolved
             (Some "Failed to fetch initial posts") l (mount []))))
             "Failed to fetch initial posts" eq_refl).
    discriminate.
  - apply (proj1 (proj2 (proj2 (proj2 (fetchPosts_resolved
             (Some "") l (mount [])))))).
    now right.
Defined.

(** X2: a load whose GET answers with something that is not an array is a
    silent no-op: [posts] is unchanged, nothing is notified, and the busy
    flag is cleared. *)
Theorem fetchPosts_not_array (initialError : option string) (s : State) :
  let s' := exec (fetchPosts initialError (Resolved None)) s in
  posts s' = posts s
  /\ notifications s' = notifications s
  /\ loading s' = false
  /\ sent s' = (sent s ++ [GET_posts])%list.
Proof.
  intros s'. unfold s'. rewrite fetchPosts_state. cbn.
  rewrite app_nil_r. repeat apply conj; reflexivity.
Qed.

(** ** The busy flag and the requests *)

Lemma step_loading (a : Action) (s : State) :
  loading s = false -> loading (step a s) = false.
Proof.
  intros Hidle. destruct a as [ie reply | | p | t b | reply | | k reply];
    cbn [step]; try exact Hidle.
  - now rewrite fetchPosts_state.
  - unfold exec, submit.
    destruct (required (f_title (form s)) && required (f_body (form s)));
      [|exact Hidle].
    fold (exec (handleSubmit reply
                  (mkPostFormData (fieldValue (f_title (form s)))
                                  (fieldValue (f_body (form s))))) s).
    submit_cases s reply; reflexivity.
  - delete_cases s k reply; reflexivity.
Qed.

(** X3: each of the three handlers that call the server leaves the busy
    flag false, whatever the reply and whatever the flag was before; hence
    the flag is false after any sequence of actions started with the flag
    false. *)
Theorem loading_cleared (s : State) :
  (forall initialError reply,
     loading (exec (fetchPosts initialError reply) s) = false)
  /\ (forall reply values, loading (exec (handleSubmit reply values) s) = false)
  /\ (forall reply postId, loading (exec (handleDelete reply postId) s) = false)
  /\ (forall acts, loading s = false -> loading (run acts s) = false).
Proof.
  repeat apply conj.
  - intros ie reply. now rewrite fetchPosts_state.
  - intros reply values. submit_cases s reply; reflexivity.
  - intros reply k. delete_cases s k reply; reflexivity.
  - intros acts. revert s. induction acts as [|a rest IH]; intros s Hidle.
    + exact Hidle.
    + cbn [run fold_left]. apply IH. now apply step_loading.
Qed.

Lemma loading_cleared_witness :
  loading (run create_edit_delete (mount [])) = false.
Proof.
  apply (proj2 (proj2 (proj2 (loading_cleared (mount []))))
           create_edit_delete eq_refl).
Defined.

(** X4: each handler call issues exactly one request, whatever the reply
    (there is no retry): a load issues the GET, a delete the DELETE of the
    given id, a submit the PUT to the edit target's id with the draft and
    the target's id and userId, or, with no edit target, the POST of the
    draft with userId 1. *)
Theorem one_request_per_call (s : State) :
  (forall initialError reply,
     sent (exec (fetchPosts initialError reply) s) = (sent s ++ [GET_posts])%list)
  /\ (forall reply postId,
        sent (exec (handleDelete reply postId) s)
        = (sent s ++ [DELETE_post postId])%list)
  /\ (forall reply values,
        sent (exec (handleSubmit reply values) s)
        = (sent s ++
             [match editingPost s with
              | Some ep => PUT_post (id ep) (fd_title values) (fd_body values)
                                    (id ep) (userId ep)
              | None => POST_posts (fd_title values) (fd_body values) 1
              end])%list).
Proof.
  repeat apply conj.
  - intros ie reply. now rewrite fetchPosts_state.
  - intros reply k. delete_cases s k reply; reflexivity.
  - intros reply values. submit_cases s reply; reflexivity.
Qed.

(** ** Update that fails *)

(** X5: an update whose PUT fails with anything but an axios error of
    status 500 changes neither [posts] nor the edit session (dialog, target
    and field values stay, so the user can retry); it fires the error
    notification "Error updating post" with the message of the error's
    shape: "Invalid request data" for status 400, and "Server error
    occurred" for a status 500 carried by a value that is not an axios
    error. *)
Theorem handleSubmit_update_real_error
    (s : State) (ep : Post) (values : PostFormData) (e : ApiError) :
  editingPost s = Some ep ->
  ~ (isAxiosError e = true /\ response e = Some 500) ->
  let s' := exec (handleSubmit (Rejected e) values) s in
  posts s' = posts s
  /\ isModalOpen s' = isModalOpen s
  /\ editingPost s' = Some ep
  /\ form s' = form s
  /\ loading s' = false
  /\ notifications s' =
     (notifications s ++
        [mkNotification error "Error updating post" (errorMessage e)])%list
  /\ (response e = Some 400 -> errorMessage e = "Invalid request data")
  /\ (response e = Some 500 -> errorMessage e = "Server error occurred"
                               /\ isAxiosError e = false).
Proof.
  intros Hed Hreal s'.
  assert (Hguard : isAxiosError e && status_is e 500 = false).
  { destruct (isAxiosError e) eqn:Hax; [cbn | reflexivity].
    apply not_true_iff_false. intros Hst. apply status_is_iff in Hst. tauto. }
  unfold s'. rewrite (handleSubmit_update_rethrown s ep values Hed e Hguard).
  cbn. repeat apply conj; try reflexivity.
  - intros Hst. unfold errorMessage. now rewrite Hst.
  - intros Hst. unfold errorMessage. rewrite Hst. split; [reflexivity|].
    destruct (isAxiosError e); [tauto | reflexivity].
Qed.

Lemma handleSubmit_update_real_error_witness :
  let s' := exec (handleSubmit (Rejected (http 400)) draft7) editing7 in
  posts s' = posts editing7
  /\ editingPost s' = Some post7
  /\ notifications s' =
     [mkNotification error "Error updating post" "Invalid request data"].
Proof.
  intros s'.
  assert (Hreal : ~ (isAxiosError (http 400) = true
                     /\ response (http 400) = Some 500)).
  { cbn. intros [_ H]. discriminate H. }
  destruct (handleSubmit_update_real_error editing7 post7 draft7 (http 400)
              eq_refl Hreal)
    as (Hposts & _ & Htarget & _ & _ & Hnote & _).
  repeat apply conj; assumption.
Defined.

(** ** How the operations compose *)

Lemma unique_by_id (l : list Post) (p q : Post) :
  NoDup (ids l) -> In p l -> In q l -> id q = id p -> q = p.
Proof.
  unfold ids. induction l as [|r l IH]; cbn; intros Hnd Hp Hq Hid; [contradiction|].
  inversion Hnd as [|? ? Hr Hl]; subst.
  destruct Hp as [-> | Hp], Hq as [-> | Hq]; auto.
  - exfalso. apply Hr. rewrite <- Hid. now apply in_map.
  - exfalso. apply Hr. rewrite Hid. now apply in_map.
Qed.

Lemma replace_by_itself (p : Post) (l : list Post) :
  (forall q, In q l -> id q = id p -> q = p) ->
  map (fun post => if id post =? id p then p else post) l = l.
Proof.
  induction l as [|r l IH]; cbn; intros Hsame; [reflexivity|].
  rewrite IH by (intros q Hq; apply Hsame; now right). f_equal.
  destruct (Z.eqb_spec (id r) (id p)) as [Heq | _]; [|reflexivity].
  symmetry. apply Hsame; [now left | exact Heq].
Qed.

(** X6: opening a record of [posts] for edit and submitting the form as it
    was seeded, with a PUT that succeeds, leaves [posts] exactly as it was
    (ids being unique and the record's title and body not empty). *)
Theorem edit_submit_untouched (s : State) (p d : Post) :
  NoDup (ids (posts s)) -> In p (posts s) ->
  title p <> "" -> body p <> "" ->
  let s' := run [EditPost p; SubmitForm (Resolved d)] s in
  posts s' = posts s
  /\ isModalOpen s' = false
  /\ editingPost s' = None
  /\ sent s' = (sent s ++ [PUT_post (id p) (title p) (body p) (id p) (userId p)])%list.
Proof.
  intros Hnd Hin Ht Hb s'. unfold s'. cbn [run fold_left step].
  rewrite (submit_valid (Resolved d) (exec (handleEdit p) s) (title p) (body p)
             eq_refl Ht Hb).
  rewrite (handleSubmit_update_resolved (exec (handleEdit p) s) p _ eq_refl).
  cbn. repeat apply conj; try reflexivity.
  replace (spread p (mkPostFormData (title p) (body p))) with p
    by (destruct p; reflexivity).
  apply replace_by_itself. intros q Hq Hid.
  now apply (unique_by_id (posts s)).
Qed.

Lemma edit_submit_untouched_witness :
  posts (run [EditPost post7; SubmitForm (Resolved post7)]
             (mount [mkPost 1 "a" "b" 1; post7]))
  = [mkPost 1 "a" "b" 1; post7].
Proof.
  apply (edit_submit_untouched (mount [mkPost 1 "a" "b" 1; post7]) post7 post7).
  - apply distinct_NoDup. reflexivity.
  - right. now left.
  - discriminate.
  - discriminate.
Defined.

(** X7: a create answered with a record whose id is not in [posts],
    followed by a delete of that id that is applied, gives back [posts] as it
    was before the create. *)
Theorem create_then_delete (s : State) (values : PostFormData) (d : Post)
    (reply : Reply unit) :
  editingPost s = None ->
  ~ In (id d) (ids (posts s)) ->
  (exists u, reply = Resolved u)
  \/ (exists e, reply = Rejected e /\ isAxiosError e = true
                /\ (response e = Some 404 \/ response e = Some 500)) ->
  posts (exec (handleDelete reply (id d))
              (exec (handleSubmit (Resolved d) values) s))
  = posts s.
Proof.
  intros Hnone Hfresh Happlied.
  rewrite (handleDelete_applied _ (id d) reply Happlied).
  rewrite (handleSubmit_create_resolved s values Hnone). cbn.
  rewrite Z.eqb_refl. cbn. now apply filter_absent.
Qed.

Lemma create_then_delete_witness :
  posts (exec (handleDelete (Rejected (http 404)) 101)
              (exec (handleSubmit (Resolved (mkPost 101 "T" "B" 1))
                                  (mkPostFormData "T" "B"))
                    (mount [mkPost 1 "a" "b" 1])))
  = [mkPost 1 "a" "b" 1].
Proof.
  apply (create_then_delete (mount [mkPost 1 "a" "b" 1]) (mkPostFormData "T" "B")
           (mkPost 101 "T" "B" 1) (Rejected (http 404)) eq_refl).
  - cbn. intros [H | []]. discriminate H.
  - right. exists (http 404). cbn. auto.
Defined.

Lemma filter_twice (k : Z) (l : list Post) :
  filter (fun post => negb (id post =? k))
         (filter (fun post => negb (id post =? k)) l)
  = filter (fun post => negb (id post =? k)) l.
Proof.
  induction l as [|p l IH]; cbn; [reflexivity|].
  destruct (negb (id p =? k)) eqn:Hp; cbn; [rewrite Hp; f_equal|]; exact IH.
Qed.

(** X8: after a delete of id [k] that is applied, no record of [posts] has
    id [k], and a second applied delete of [k] changes nothing more. *)
Theorem delete_twice (s : State) (k : Z) (reply reply' : Reply unit) :
  (exists u, reply = Resolved u)
  \/ (exists e, reply = Rejected e /\ isAxiosError e = true
                /\ (response e = Some 404 \/ response e = Some 500)) ->
  (exists u, reply' = Resolved u)
  \/ (exists e, reply' = Rejected e /\ isAxiosError e = true
                /\ (response e = Some 404 \/ response e = Some 500)) ->
  let s1 := exec (handleDelete reply k) s in
  ~ In k (ids (posts s1))
  /\ posts (exec (handleDelete reply' k) s1) = posts s1.
Proof.
  intros Hfirst Hsecond s1. unfold s1.
  rewrite (handleDelete_applied _ k reply' Hsecond).
  rewrite (handleDelete_applied s k reply Hfirst). cbn.
  split; [|apply filter_twice].
  unfold ids. intros Hin. apply in_map_iff in Hin as (p & Hid & Hin).
  apply filter_In in Hin as [_ Hne].
  apply negb_true_iff, Z.eqb_neq in Hne. contradiction.
Qed.

Lemma delete_twice_witness :
  let s := mount [mkPost 1 "a" "b" 1; post7] in
  let s1 := exec (handleDelete (Resolved tt) 7) s in
  ~ In 7 (ids (posts s1))
  /\ posts (exec (handleDelete (Rejected (http 500)) 7) s1) = posts s1.
Proof.
  intros s.
  apply (delete_twice s 7 (Resolved tt) (Rejected (http 500))).
  - left. now exists tt.
  - right. exists (http 500). cbn. auto.
Defined.

Lemma filter_one_less (k : Z) (l : list Post) :
  NoDup (ids l) -> In k (ids l) ->
  S (List.length (filter (fun post => negb (id post =? k)) l)) = List.length l.
Proof.
  unfold ids. induction l as [|p l IH]; cbn; intros Hnd Hin; [contradiction|].
  inversion Hnd as [|? ? Hp Hl]; subst.
  destruct (Z.eqb_spec (id p) k) as [Heq | Hne]; cbn.
  - f_equal. f_equal. apply filter_absent. unfold ids. now rewrite <- Heq.
  - f_equal. apply IH; [exact Hl|]. destruct Hin as [Hin | Hin]; [contradiction | exact Hin].
Qed.

(** X9: an applied delete never lengthens [posts]; with unique ids and a
    record of id [k] present it removes exactly one record, and the ids
    stay unique. *)
Theorem delete_removes_one (s : State) (k : Z) (reply : Reply unit) :
  (exists u, reply = Resolved u)
  \/ (exists e, reply = Rejected e /\ isAxiosError e = true
                /\ (response e = Some 404 \/ response e = Some 500)) ->
  let s' := exec (handleDelete reply k) s in
  (List.length (posts s') <= List.length (posts s))%nat
  /\ (NoDup (ids (posts s)) -> In k (ids (posts s)) ->
      S (List.length (posts s')) = List.length (posts s)
      /\ NoDup (ids (posts s'))).
Proof.
  intros Happlied s'. unfold s'.
  rewrite (handleDelete_applied s k reply Happlied). cbn. split.
  - apply filter_length_le.
  - intros Hnd Hin. split; [now apply filter_one_less | now apply NoDup_ids_filter].
Qed.

Lemma delete_removes_one_witness :
  let s := mount [mkPost 1 "a" "b" 1; post7; mkPost 9 "x" "y" 2] in
  S (List.length (posts (exec (handleDelete (Resolved tt) 7) s))) = 3%nat.
Proof.
  intros s.
  apply (proj2 (delete_removes_one s 7 (Resolved tt)
                  (or_introl (ex_intro _ tt eq_refl)))).
  - apply distinct_NoDup. reflexivity.
  - cbn. auto.
Defined.

(** X10: a submit that fails for a reason that is not simulated can be
    retried: the failed attempt leaves [posts] and the edit target as they
    were, and a second submit of the same draft that succeeds gives the
    [posts] a first success would have given. *)
Theorem submit_retry (s : State) (values : PostFormData) (e : ApiError) (d : Post) :
  editingPost s = None
  \/ ~ (isAxiosError e = true /\ response e = Some 500) ->
  let failed := exec (handleSubmit (Rejected e) values) s in
  posts failed = posts s
  /\ editingPost failed = editingPost s
  /\ isModalOpen failed = isModalOpen s
  /\ posts (exec (handleSubmit (Resolved d) values) failed)
     = posts (exec (handleSubmit (Resolved d) values) s).
Proof.
  intros Hreal failed. unfold failed.
  destruct (editingPost s) as [ep|] eqn:Hed.
  - assert (Hguard : isAxiosError e && status_is e 500 = false).
    { destruct Hreal as [Hnone | Hreal]; [discriminate Hnone|].
      destruct (isAxiosError e) eqn:Hax; [cbn | reflexivity].
      apply not_true_iff_false. intros Hst. apply status_is_iff in Hst. tauto. }
    rewrite (handleSubmit_update_resolved s ep values Hed).
    rewrite (handleSubmit_update_rethrown s ep values Hed e Hguard).
    match goal with
    | |- context [exec (handleSubmit (Resolved d) values) ?st] =>
        rewrite (handleSubmit_update_resolved st ep values eq_refl)
    end.
    cbn. repeat apply conj; reflexivity.
  - rewrite (handleSubmit_create_resolved s values Hed).
    rewrite (handleSubmit_create_rejected s values Hed).
    match goal with
    | |- context [exec (handleSubmit (Resolved d) values) ?st] =>
        rewrite (handleSubmit_create_resolved st values eq_refl)
    end.
    cbn. repeat apply conj; reflexivity.
Qed.

Lemma submit_retry_witness :
  posts (exec (handleSubmit (Resolved post7) draft7)
              (exec (handleSubmit (Rejected (http 404)) draft7) editing7))
  = [mkPost 1 "a" "b" 1; mkPost 7 "new" "new2" 3; mkPost 9 "x" "y" 2].
Proof.
  assert (Hreal : editingPost editing7 = None
                  \/ ~ (isAxiosError (http 404) = true
                        /\ response (http 404) = Some 500)).
  { right. cbn. intros [_ H]. discriminate H. }
  destruct (submit_retry editing7 draft7 (http 404) post7 Hreal)
    as (_ & _ & _ & Hretry).
  rewrite Hretry. reflexivity.
Defined.

(** ** The edit session *)

(** X11: opening the dialog (by "Add New Post" or by "Edit"), typing, and
    cancelling gives back the state the component was in, when the dialog
    was closed with no target and empty fields: cancelling discards what was
    typed and touches neither [posts] nor the server. *)
Theorem open_type_cancel (s : State) (t b : option string) :
  isModalOpen s = false -> editingPost s = None -> form s = mkForm None None ->
  run [AddNew; TypeIn t b; CancelForm] s = s
  /\ (forall p, run [EditPost p; TypeIn t b; CancelForm] s = s).
Proof.
  destruct s as [ps ld op ed fm ns rs]. cbn.
  intros -> -> ->. split; reflexivity.
Qed.

Lemma open_type_cancel_witness :
  run [EditPost post7; TypeIn (Some "typed") None; CancelForm] (mount [post7])
  = mount [post7].
Proof.
  apply (proj2 (open_type_cancel (mount [post7]) (Some "typed") None
                  eq_refl eq_refl eq_refl) post7).
Defined.

Lemma step_closed_no_target (a : Action) (s : State) :
  (isModalOpen s = false -> editingPost s = None) ->
  isModalOpen (step a s) = false -> editingPost (step a s) = None.
Proof.
  intros Hinv. destruct a as [ie reply | | p | t b | reply | | k reply];
    cbn [step]; try exact Hinv; try discriminate; try reflexivity.
  - rewrite fetchPosts_state. exact Hinv.
  - unfold exec, submit.
    destruct (required (f_title (form s)) && required (f_body (form s)));
      [|exact Hinv].
    fold (exec (handleSubmit reply
                  (mkPostFormData (fieldValue (f_title (form s)))
                                  (fieldValue (f_body (form s))))) s).
    submit_cases s reply; cbn; intros Hclosed; try reflexivity.
    exact (Hinv Hclosed).
  - delete_cases s k reply; exact Hinv.
Qed.

Lemma run_closed_no_target (acts : list Action) (s : State) :
  (isModalOpen s = false -> editingPost s = None) ->
  isModalOpen (run acts s) = false -> editingPost (run acts s) = None.
Proof.
  revert s. induction acts as [|a rest IH]; intros s Hinv; [exact Hinv|].
  cbn [run fold_left]. apply IH. now apply step_closed_no_target.
Qed.

(** X12: after any sequence of actions on the mounted component, a closed
    dialog has no edit target.  So although "Add New Post" only opens the
    dialog and resets nothing, a valid submit after it is always a create:
    the request sent is the POST of what was typed, with userId 1. *)
Theorem add_is_create (acts : list Action) (initialPosts : list Post) :
  let s := run acts (mount initialPosts) in
  isModalOpen s = false ->
  editingPost s = None
  /\ (forall t b reply, t <> "" -> b <> "" ->
        sent (run [AddNew; TypeIn (Some t) (Some b); SubmitForm reply] s)
        = (sent s ++ [POST_posts t b 1])%list).
Proof.
  intros s Hclosed.
  assert (Hnone : editingPost s = None).
  { apply run_closed_no_target; [reflexivity | exact Hclosed]. }
  split; [exact Hnone|].
  intros t b reply Ht Hb. cbn [run fold_left step].
  rewrite (submit_valid reply
             (exec (typeFields (Some t) (Some b)) (exec addNewPost s)) t b
             eq_refl Ht Hb).
  rewrite handleSubmit_sent. cbn. now rewrite Hnone.
Qed.

Lemma add_is_create_witness :
  let s := run create_edit_delete (mount []) in
  sent (run [AddNew; TypeIn (Some "T") (Some "B"); SubmitForm (Rejected (http 400))] s)
  = (sent s ++ [POST_posts "T" "B" 1])%list.
Proof.
  intros s.
  apply (proj2 (add_is_create create_edit_delete [] eq_refl)
           "T" "B" (Rejected (http 400))); discriminate.
Defined.

(** ** What a sequence of actions never does *)

Lemma served_cons (a : Action) (rest : list Action) :
  served (a :: rest) = (served [a] ++ served rest)%list.
Proof.
  destruct a as [ie [[l|] | e] | | p | t b | [d | e] | | k reply]; cbn;
    rewrite ?app_nil_r; reflexivity.
Qed.

Lemma step_ids_served (a : Action) (s : State) (k : Z) :
  In k (ids (posts (step a s))) ->
  In k (ids (posts s)) \/ In k (served [a]).
Proof.
  destruct a as [ie reply | | p | t b | reply | | j reply];
    cbn [step]; auto.
  - rewrite posts_fetchPosts. destruct reply as [[l|] | e]; auto.
    intros Hin. right. cbn. now rewrite app_nil_r.
  - unfold exec, submit.
    destruct (required (f_title (form s)) && required (f_body (form s)));
      [|auto].
    fold (exec (handleSubmit reply
                  (mkPostFormData (fieldValue (f_title (form s)))
                                  (fieldValue (f_body (form s))))) s).
    submit_cases s reply; cbn [posts]; rewrite ?ids_replace by reflexivity; auto.
    cbn. intros [<- | Hin]; auto.
  - intros Hin. left. revert Hin.
    delete_cases s j reply; cbn [posts]; auto;
      unfold ids; rewrite !in_map_iff; intros (p & Hid & Hin);
      apply filter_In in Hin as [Hin _]; now exists p.
Qed.

(** X13: the component never makes up a record: after any sequence of
    actions, every id in [posts] was in [posts] at the start or was handed
    out by the server in the reply of a load or of a submit. *)
Theorem ids_come_from_server (acts : list Action) (s : State) (k : Z) :
  In k (ids (posts (run acts s))) ->
  In k (ids (posts s)) \/ In k (served acts).
Proof.
  revert s. induction acts as [|a rest IH]; intros s Hin; [now left|].
  cbn [run fold_left] in Hin. rewrite served_cons.
  destruct (IH _ Hin) as [Hstep | Hrest].
  - destruct (step_ids_served a s k Hstep) as [H | H]; [now left | right].
    apply in_or_app. now left.
  - right. apply in_or_app. now right.
Qed.

Lemma ids_come_from_server_witness :
  In 2 (ids (posts (mount []))) \/ In 2 (served create_edit_delete).
Proof.
  apply (ids_come_from_server create_edit_delete (mount []) 2).
  cbn. auto.
Defined.

Lemma step_payload_ok (a : Action) (s : State) :
  Forall (fun rq => payload_ok rq = true) (sent s) ->
  Forall (fun rq => payload_ok rq = true) (sent (step a s)).
Proof.
  intros Hok. destruct a as [ie reply | | p | t b | reply | | k reply];
    cbn [step]; try exact Hok.
  - rewrite fetchPosts_state. cbn. apply Forall_app. split; [exact Hok|].
    now repeat constructor.
  - unfold exec, submit.
    destruct (required (f_title (form s))) eqn:Ht; [|exact Hok].
    destruct (required (f_body (form s))) eqn:Hb; [|exact Hok].
    cbn [andb].
    fold (exec (handleSubmit reply
                  (mkPostFormData (fieldValue (f_title (form s)))
                                  (fieldValue (f_body (form s))))) s).
    rewrite handleSubmit_sent. apply Forall_app. split; [exact Hok|].
    constructor; [|constructor].
    apply required_value in Ht as [_ Ht], Hb as [_ Hb].
    apply String.eqb_neq in Ht, Hb.
    destruct (editingPost s); cbn; now rewrite Ht, Hb.
  - assert (Hsent : sent (exec (handleDelete reply k) s)
                    = (sent s ++ [DELETE_post k])%list)
      by (delete_cases s k reply; reflexivity).
    rewrite Hsent. apply Forall_app. split; [exact Hok|].
    now repeat constructor.
Qed.

(** X14: through the form, the component never sends an empty title or an
    empty body: after any sequence of actions, every POST and PUT that went
    out carries a title and a body that are not the empty text. *)
Theorem requests_carry_title_and_body (acts : list Action) (s : State) :
  Forall (fun rq => payload_ok rq = true) (sent s) ->
  Forall (fun rq => payload_ok rq = true) (sent (run acts s)).
Proof.
  revert s. induction acts as [|a rest IH]; intros s Hok; [exact Hok|].
  cbn [run fold_left]. apply IH. now apply step_payload_ok.
Qed.

Lemma requests_carry_title_and_body_witness :
  Forall (fun rq => payload_ok rq = true)
         (sent (run (create_twice ++ create_edit_delete) (mount []))).
Proof.
  apply (requests_carry_title_and_body (create_twice ++ create_edit_delete)
           (mount [])).
  cbn. constructor.
Defined.

(** ** Mounting *)

(** X15: mounted with posts and no initial error (none, or the empty
    text), the table neither calls the server nor notifies anything; mounted
    with no post and no initial error it loads silently: the GET goes out,
    an array that comes back becomes [posts] with no notification, and a
    failure gives the one error notification of the load. *)
Theorem mount_without_error (initialError : option string) (initialPosts : list Post)
    (reply : Reply (option (list Post))) :
  initialError = None \/ initialError = Some "" ->
  (initialPosts <> [] ->
     exec (mountEffects initialError reply) (mount initialPosts)
     = mount initialPosts)
  /\ (initialPosts = [] ->
      let s' := exec (mountEffects initialError reply) (mount initialPosts) in
      sent s' = [GET_posts]
      /\ loading s' = false
      /\ (forall l, reply = Resolved (Some l) ->
            posts s' = l /\ notifications s' = [])
      /\ (forall e, reply = Rejected e ->
            posts s' = []
            /\ notifications s' =
               [mkNotification error "Error fetching posts" (errorMessage e)])).
Proof.
  intros Hfalsy. split.
  - intros Hposts. destruct initialPosts as [|p l]; [contradiction|].
    destruct Hfalsy as [-> | ->]; reflexivity.
  - intros -> s'. unfold s', exec, mountEffects.
    assert (Hno : truthy initialError = false)
      by (destruct Hfalsy as [-> | ->]; reflexivity).
    rewrite Hno. cbn [posts mount List.length Nat.eqb orb].
    assert (Hrun : forall s,
      (match initialError with
       | Some msg => ret tt
       | None => ret tt
       end ;; fetchPosts initialError reply) s = fetchPosts initialError reply s).
    { intros s. destruct initialError; reflexivity. }
    rewrite Hrun. fold (exec (fetchPosts initialError reply) (mount [])).
    rewrite fetchPosts_state. cbn.
    split; [reflexivity | split; [reflexivity | split]].
    + intros l ->. rewrite Hno. split; reflexivity.
    + intros e ->. split; reflexivity.
Qed.

Lemma mount_without_error_witness :
  exec (mountEffects (Some "") (Rejected (http 500))) (mount [post7])
  = mount [post7]
  /\ posts (exec (mountEffects None (Resolved (Some [post7]))) (mount []))
     = [post7].
Proof.
  split.
  - apply (proj1 (mount_without_error (Some "") [post7] (Rejected (http 500))
                    (or_intror eq_refl))).
    discriminate.
  - apply (proj1 (proj2 (proj2 (proj2 (mount_without_error None []
             (Resolved (Some [post7])) (or_introl eq_refl)) eq_refl)))
             [post7] eq_refl).
Defined.

(** X16: mounted with an initial error, the table always loads again, even
    when it was given posts, and the first thing it notifies is that error,
    titled "Error Loading Data".  A load that then succeeds replaces [posts]
    and adds the success notification "Data Loaded"; one that fails keeps
    the given posts and adds the error notification of the load. *)
Theorem mount_with_error (msg : string) (initialPosts : list Post)
    (reply : Reply (option (list Post))) :
  msg <> "" ->
  let s' := exec (mountEffects (Some msg) reply) (mount initialPosts) in
  sent s' = [GET_posts]
  /\ loading s' = false
  /\ hd_error (notifications s')
     = Some (mkNotification error "Error Loading Data" msg)
  /\ (forall l, reply = Resolved (Some l) ->
        posts s' = l
        /\ notifications s' =
           [mkNotification error "Error Loading Data" msg;
            mkNotification success "Data Loaded" "Successfully retrieved posts"])
  /\ (forall e, reply = Rejected e ->
        posts s' = initialPosts
        /\ notifications s' =
           [mkNotification error "Error Loading Data" msg;
            mkNotification error "Error fetching posts" (errorMessage e)]).
Proof.
  intros Hne s'.
  assert (Hyes : truthy (Some msg) = true)
    by (cbn; apply negb_true_iff; now apply String.eqb_neq).
  assert (Hs' : s' =
    exec (fetchPosts (Some msg) reply)
         (exec (showNotification error "Error Loading Data" msg)
               (mount initialPosts))).
  { unfold s', exec, mountEffects. rewrite Hyes. reflexivity. }
  rewrite Hs', fetchPosts_state. cbn.
  split; [reflexivity | split; [reflexivity | split; [reflexivity | split]]].
  - intros l ->. apply String.eqb_neq in Hne. rewrite Hne. split; reflexivity.
  - intros e ->. split; reflexivity.
Qed.

Lemma mount_with_error_witness :
  posts (exec (mountEffects (Some "Failed to fetch initial posts")
                 (Resolved (Some [post7])))
              (mount [mkPost 1 "a" "b" 1]))
  = [post7].
Proof.
  apply (proj1 (proj2 (proj2 (proj2 (mount_with_error
           "Failed to fetch initial posts" [mkPost 1 "a" "b" 1]
           (Resolved (Some [post7])) ltac:(discriminate)))))
           [post7] eq_refl).
Defined.

(** ** The page *)

(** X17: [Home] renders no table while it loads.  Once its GET has answered
    with a non-empty array, it renders the table mounted with that array,
    and the table makes no call of its own and notifies nothing; after an
    empty array, or data that is not an array, the table is mounted empty
    and loads by itself. *)
Theorem Home_loaded (table_reply : Reply (option (list Post))) :
  Home_render Home_init table_reply = None
  /\ (forall l, l <> [] ->
        Home_render (fetchInitialPosts (Resolved (PostsArray l)) Home_init)
                    table_reply
        = Some (mount l))
  /\ (forall data, data = PostsArray [] \/ data = NotAnArray ->
        Home_render (fetchInitialPosts (Resolved data) Home_init) table_reply
        = Some (exec (fetchPosts None table_reply) (mount []))).
Proof.
  split; [reflexivity | split].
  - intros l Hl. destruct l as [|p l]; [contradiction | reflexivity].
  - intros data [-> | ->]; reflexivity.
Qed.

Lemma Home_loaded_witness :
  Home_render (fetchInitialPosts (Resolved (PostsArray [post7])) Home_init)
              (Rejected (http 500))
  = Some (mount [post7]).
Proof.
  apply (proj1 (proj2 (Home_loaded (Rejected (http 500)))) [post7]).
  discriminate.
Defined.

(** X18: when the GET of [Home] fails, or answers with no data, [Home]
    hands the table no post and the error "Failed to fetch initial posts",
    whatever the failure was.  The table then notifies that error and loads
    again: a success shows the posts with the notification "Data Loaded", a
    second failure leaves the table empty with a second error
    notification. *)
Theorem Home_failed (reply : Reply GetData) :
  (exists e, reply = Rejected e) \/ reply = Resolved NoData ->
  let h := fetchInitialPosts reply Home_init in
  h = mkHome [] (Some "Failed to fetch initial posts") false
  /\ (forall l,
        Home_render h (Resolved (Some l))
        = Some (mkState l false false None (mkForm None None)
                  [mkNotification error "Error Loading Data"
                     "Failed to fetch initial posts";
                   mkNotification success "Data Loaded"
                     "Successfully retrieved posts"]
                  [GET_posts]))
  /\ (forall e,
        Home_render h (Rejected e)
        = Some (mkState [] false false None (mkForm None None)
                  [mkNotification error "Error Loading Data"
                     "Failed to fetch initial posts";
                   mkNotification error "Error fetching posts" (errorMessage e)]
                  [GET_posts])).
Proof.
  intros Hfailed h.
  assert (Hh : h = mkHome [] (Some "Failed to fetch initial posts") false).
  { unfold h. destruct Hfailed as [[e ->] | ->]; reflexivity. }
  rewrite Hh. split; [reflexivity | split; intros; reflexivity].
Qed.

Lemma Home_failed_witness :
  fetchInitialPosts (Rejected (http 500)) Home_init
  = mkHome [] (Some "Failed to fetch initial posts") false.
Proof.
  apply (Home_failed (Rejected (http 500))).
  left. now exists (http 500).
Defined.
